(** * A shallow embedding of the client controller [VideoAnalysisApp]
    (static front-end script of the video-analysis server).

    The [VideoAnalysisApp] object is modelled as a record [app] holding the
    fields the controller reads and writes ([this.cameras],
    [this.retryCount], [this.isUploading], ...), together with the parts of
    the page it touches (notifications shown, requests issued, timers
    scheduled, the preview panel and the status texts).  Methods are
    written in a small state monad [M].  An [async] method is split at its
    first [await]: a [_start] function runs the synchronous prefix (and
    issues the request), a [_resume] function runs the continuation once
    the awaited response is known. *)

From Stdlib Require Import ZArith List String Ascii Bool Lia.
Import ListNotations.
Open Scope string_scope.
Open Scope Z_scope.

(** ** Data *)

Record camera := mkCamera { cam_id : Z; cam_name : string }.

(** The descriptor returned by the upload endpoint; only the stored file
    name is read by the controller. *)
Record video_info := mkVideoInfo { vi_filename : string }.

(** A [File] chosen in the [videoFile] input. *)
Record file := mkFile { file_name : string; file_type : string }.

(** The elements of the page the methods look up by id. *)
Record page := mkPage {
  has_checkbox : bool;          (* #enableDepersonalization *)
  checkbox_checked : bool;
  has_progress : bool;          (* progress bar, #progressText, #processingStatus *)
  has_panel : bool;             (* #cameraPreview *)
  has_videosGrid : bool;        (* #videosGrid *)
  selected_file : option file   (* videoFile.files[0] *)
}.

Inductive kind := Kinfo | Ksuccess | Kwarning | Kerror.

(** One call of [showNotification(message, type)]. *)
Definition note := (string * kind)%type.

(** Requests passed to [fetch]. *)
Inductive request :=
| ReqGet (path : string)
| ReqUpload
| ReqProcess (filename : string) (depersonalize : bool)
| ReqSnapshot (camera_id : Z).

(** Callbacks scheduled with [setTimeout] by [handleApiError]. *)
Inductive timer_cb := TRetry (resource : string).
Definition timer := (Z * timer_cb)%type.

Inductive cam_status := Online | Offline.

(** Content of the [#cameraPreview] panel. *)
Inductive panel :=
| PanelInitial
| PanelLoading
| PanelRendered (items : list (camera * option string * cam_status)).

Record app := mkApp {
  pathname : string;
  dom : page;
  cameras : list camera;
  videos : list string;
  uploadedVideos : list string;
  currentVideo : option video_info;
  retryCount : Z;
  maxRetries : Z;
  isUploading : bool;
  isProcessing : bool;
  previewPanel : panel;
  streamStatus : string;
  processingStatus : string;
  notes : list note;
  requests : list request;
  timers : list timer;
  polls : list string   (* processed file names of started polling loops *)
}.

(** ** Field updates *)

Definition set_cameras v s := mkApp (pathname s) (dom s) v (videos s) (uploadedVideos s) (currentVideo s) (retryCount s) (maxRetries s) (isUploading s) (isProcessing s) (previewPanel s) (streamStatus s) (processingStatus s) (notes s) (requests s) (timers s) (polls s).
Definition set_videos v s := mkApp (pathname s) (dom s) (cameras s) v (uploadedVideos s) (currentVideo s) (retryCount s) (maxRetries s) (isUploading s) (isProcessing s) (previewPanel s) (streamStatus s) (processingStatus s) (notes s) (requests s) (timers s) (polls s).
Definition set_uploadedVideos v s := mkApp (pathname s) (dom s) (cameras s) (videos s) v (currentVideo s) (retryCount s) (maxRetries s) (isUploading s) (isProcessing s) (previewPanel s) (streamStatus s) (processingStatus s) (notes s) (requests s) (timers s) (polls s).
Definition set_currentVideo v s := mkApp (pathname s) (dom s) (cameras s) (videos s) (uploadedVideos s) v (retryCount s) (maxRetries s) (isUploading s) (isProcessing s) (previewPanel s) (streamStatus s) (processingStatus s) (notes s) (requests s) (timers s) (polls s).
Definition set_retryCount v s := mkApp (pathname s) (dom s) (cameras s) (videos s) (uploadedVideos s) (currentVideo s) v (maxRetries s) (isUploading s) (isProcessing s) (previewPanel s) (streamStatus s) (processingStatus s) (notes s) (requests s) (timers s) (polls s).
Definition set_isUploading v s := mkApp (pathname s) (dom s) (cameras s) (videos s) (uploadedVideos s) (currentVideo s) (retryCount s) (maxRetries s) v (isProcessing s) (previewPanel s) (streamStatus s) (processingStatus s) (notes s) (requests s) (timers s) (polls s).
Definition set_isProcessing v s := mkApp (pathname s) (dom s) (cameras s) (videos s) (uploadedVideos s) (currentVideo s) (retryCount s) (maxRetries s) (isUploading s) v (previewPanel s) (streamStatus s) (processingStatus s) (notes s) (requests s) (timers s) (polls s).
Definition set_previewPanel v s := mkApp (pathname s) (dom s) (cameras s) (videos s) (uploadedVideos s) (currentVideo s) (retryCount s) (maxRetries s) (isUploading s) (isProcessing s) v (streamStatus s) (processingStatus s) (notes s) (requests s) (timers s) (polls s).
Definition set_streamStatus v s := mkApp (pathname s) (dom s) (cameras s) (videos s) (uploadedVideos s) (currentVideo s) (retryCount s) (maxRetries s) (isUploading s) (isProcessing s) (previewPanel s) v (processingStatus s) (notes s) (requests s) (timers s) (polls s).
Definition set_processingStatus v s := mkApp (pathname s) (dom s) (cameras s) (videos s) (uploadedVideos s) (currentVideo s) (retryCount s) (maxRetries s) (isUploading s) (isProcessing s) (previewPanel s) (streamStatus s) v (notes s) (requests s) (timers s) (polls s).
Definition set_dom v s := mkApp (pathname s) v (cameras s) (videos s) (uploadedVideos s) (currentVideo s) (retryCount s) (maxRetries s) (isUploading s) (isProcessing s) (previewPanel s) (streamStatus s) (processingStatus s) (notes s) (requests s) (timers s) (polls s).
Definition add_note n s := mkApp (pathname s) (dom s) (cameras s) (videos s) (uploadedVideos s) (currentVideo s) (retryCount s) (maxRetries s) (isUploading s) (isProcessing s) (previewPanel s) (streamStatus s) (processingStatus s) (notes s ++ [n]) (requests s) (timers s) (polls s).
Definition add_request r s := mkApp (pathname s) (dom s) (cameras s) (videos s) (uploadedVideos s) (currentVideo s) (retryCount s) (maxRetries s) (isUploading s) (isProcessing s) (previewPanel s) (streamStatus s) (processingStatus s) (notes s) (requests s ++ [r]) (timers s) (polls s).
Definition add_timer t s := mkApp (pathname s) (dom s) (cameras s) (videos s) (uploadedVideos s) (currentVideo s) (retryCount s) (maxRetries s) (isUploading s) (isProcessing s) (previewPanel s) (streamStatus s) (processingStatus s) (notes s) (requests s) (timers s ++ [t]) (polls s).
Definition add_poll p s := mkApp (pathname s) (dom s) (cameras s) (videos s) (uploadedVideos s) (currentVideo s) (retryCount s) (maxRetries s) (isUploading s) (isProcessing s) (previewPanel s) (streamStatus s) (processingStatus s) (notes s) (requests s) (timers s) (polls s ++ [p]).

(** ** The state monad the methods run in *)

Definition M (A : Type) := app -> A * app.

Definition ret {A} (a : A) : M A := fun s => (a, s).
Definition bind {A B} (m : M A) (k : A -> M B) : M B :=
  fun s => let (a, s') := m s in k a s'.
Definition gets {A} (f : app -> A) : M A := fun s => (f s, s).
Definition modify (f : app -> app) : M unit := fun s => (tt, f s).

Notation "x <- m ;; k" := (bind m (fun x => k))
  (at level 61, m at next level, right associativity).
Notation "m ;; k" := (bind m (fun _ => k))
  (at level 61, right associativity).

Definition showNotification (msg : string) (k : kind) : M unit := modify (add_note (msg, k)).
Definition fetch (r : request) : M unit := modify (add_request r).
Definition setTimeout (delay : Z) (cb : timer_cb) : M unit := modify (add_timer (delay, cb)).
(** [console.log] / [console.error]: not observable on the page. *)
Definition log (msg : string) : M unit := ret tt.

(** Decimal rendering of a non-negative integer, for template strings. *)
Fixpoint digits (fuel : nat) (n : Z) (acc : string) : string :=
  match fuel with
  | O => acc
  | S f =>
      let d := String (Ascii.ascii_of_nat (48 + Z.to_nat (n mod 10))) EmptyString in
      if n <? 10 then d ++ acc else digits f (n / 10) (d ++ acc)
  end.
Definition to_dec (n : Z) : string := digits 20 n "".

(** ** Resource loader: [handleApiError], [loadCameras], [loadVideos],
    [loadUploadedVideos] *)

(** Outcome of [await fetch(...)] followed by [await response.json()]. *)
Inductive fetch_result (A : Type) :=
| FOk (data : A)        (* response.ok, body parsed *)
| FNotOk (status : Z)   (* !response.ok: throw new Error(`HTTP ...`) *)
| FNetErr.              (* fetch rejected *)
Arguments FOk {A}.
Arguments FNotOk {A}.
Arguments FNetErr {A}.

Definition handleApiError (resource : string) : M unit :=
  log ("Error loading " ++ resource) ;;
  c <- gets retryCount ;;
  mx <- gets maxRetries ;;
  if c <? mx then
    modify (set_retryCount (c + 1)) ;;
    c' <- gets retryCount ;;
    log ("Retrying " ++ resource) ;;
    setTimeout (1000 * c') (TRetry resource)
  else
    showNotification ("Failed to load " ++ resource ++ " after " ++ to_dec mx ++ " attempts") Kerror ;;
    modify (set_retryCount 0).

(** The synchronous prefix of [loadCameras]; [true] when a request is
    awaited. *)
Definition loadCameras_start : M bool :=
  p <- gets pathname ;;
  if String.eqb p "/library" then log "Skipping cameras load" ;; ret false
  else fetch (ReqGet "/api/cameras") ;; ret true.

(** [renderCameras] only rewrites [#camerasList]; not modelled. *)
Definition loadCameras_resume (r : fetch_result (list camera)) : M unit :=
  match r with
  | FOk cs => modify (set_cameras cs) ;; modify (set_retryCount 0)
  | FNotOk _ | FNetErr => log "Error loading cameras" ;; handleApiError "cameras"
  end.

Definition loadVideos_start : M bool :=
  fetch (ReqGet "/api/videos") ;; ret true.

Definition loadVideos_resume (r : fetch_result (list string)) : M unit :=
  match r with
  | FOk vs => modify (set_videos vs)
  | FNotOk _ | FNetErr => log "Error loading videos" ;; handleApiError "videos"
  end.

Definition loadUploadedVideos_start : M bool :=
  p <- gets pathname ;;
  if String.eqb p "/library" then log "Skipping uploaded videos load" ;; ret false
  else fetch (ReqGet "/api/uploaded-videos") ;; ret true.

Definition loadUploadedVideos_resume (r : fetch_result (list string)) : M unit :=
  match r with
  | FOk vs => modify (set_uploadedVideos vs)
  | FNotOk _ | FNetErr => log "Error loading uploaded videos" ;; handleApiError "uploaded-videos"
  end.

(** ** Processing submission: [processVideo] *)

Inductive pv_state := PvIgnored | PvReturned | PvAwaiting.

(** Response to [POST /api/process-video]. *)
Inductive process_response :=
| PNetErr
| PReject (error : option string)        (* !response.ok, body [{error}] *)
| PAccept (processed_filename : string).

Definition processVideo_start : M pv_state :=
  busy <- gets isProcessing ;;
  if busy then log "Processing already in progress, ignoring duplicate request" ;; ret PvIgnored
  else
    modify (set_isProcessing true) ;;
    cv <- gets currentVideo ;;
    match cv with
    | None =>
        showNotification "Please upload a video first" Kerror ;;
        modify (set_isProcessing false) ;;
        ret PvReturned
    | Some v =>
        d <- gets dom ;;
        if negb (has_checkbox d) then
          log "Depersonalization checkbox not found on this page" ;; ret PvReturned
        else if negb (has_progress d) then
          showNotification "Progress display not available" Kwarning ;; ret PvReturned
        else
          modify (set_processingStatus "Starting video processing...") ;;
          fetch (ReqProcess (vi_filename v) (checkbox_checked d)) ;;
          ret PvAwaiting
    end.

(** The [catch (error)] block; [error.message] is not read. *)
Definition processVideo_catch (message : string) : M unit :=
  log "Processing error" ;;
  modify (set_processingStatus "Processing failed") ;;
  showNotification "Processing failed" Kerror.

(** [startProgressPolling] as seen from the controller: one more polling
    loop runs; its own behaviour is the [Poller] model below. *)
Definition startProgressPolling (processed_filename : string) : M unit :=
  modify (add_poll processed_filename).

Definition processVideo_resume (r : process_response) : M unit :=
  (match r with
   | PNetErr => processVideo_catch "Failed to fetch"
   | PReject e =>
       processVideo_catch (match e with Some m => m | None => "Processing failed" end)
   | PAccept f => startProgressPolling f
   end) ;;
  (* finally *)
  modify (set_isProcessing false).

(** ** Upload: [handleVideoUpload] and [uploadVideo] *)

Definition allowedTypes : list string :=
  ["video/mp4"; "video/avi"; "video/mov"; "video/mkv"; "video/webm"].

Inductive hu_state := HuIgnored | HuReturned | HuAwaiting.

Definition handleVideoUpload_start : M hu_state :=
  busy <- gets isUploading ;;
  if busy then log "Upload already in progress, ignoring duplicate request" ;; ret HuIgnored
  else
    modify (set_isUploading true) ;;
    d <- gets dom ;;
    match selected_file d with
    | None =>
        showNotification "Please select a video file" Kwarning ;;
        modify (set_isUploading false) ;;
        ret HuReturned
    | Some f =>
        if negb (existsb (String.eqb (file_type f)) allowedTypes) then
          showNotification "Please select a valid video file (MP4, AVI, MOV, MKV, WEBM)" Kwarning ;;
          ret HuReturned
        else
          log ("Uploading video: " ++ file_name f) ;;
          showNotification "Uploading video..." Kinfo ;;
          fetch ReqUpload ;;
          ret HuAwaiting
    end.

(** Response to [POST /api/upload-video] as read by [handleVideoUpload]. *)
Inductive upload_response :=
| UNetErr (message : string)
| UNotOk (status_line : string)           (* `${status} ${statusText}` *)
| UOk (success : bool) (video : option video_info) (error : option string).

(** The continuation of [handleVideoUpload]; [lr] is the outcome of the
    awaited [loadUploadedVideos()] on the success path. *)
Definition handleVideoUpload_resume (r : upload_response)
    (lr : fetch_result (list string)) : M unit :=
  (match r with
   | UNetErr m => showNotification ("Upload failed: " ++ m) Kerror
   | UNotOk st => showNotification ("Upload failed: Upload failed: " ++ st) Kerror
   | UOk true vi _ =>
       showNotification "Video uploaded successfully!" Ksuccess ;;
       d <- gets dom ;;
       modify (set_dom (mkPage (has_checkbox d) (checkbox_checked d) (has_progress d)
                               (has_panel d) (has_videosGrid d) None)) ;;
       (match vi with Some v => modify (set_currentVideo (Some v)) | None => ret tt end) ;;
       go <- loadUploadedVideos_start ;;
       (if go then loadUploadedVideos_resume lr else ret tt)
   | UOk false _ e =>
       showNotification (match e with Some m => m | None => "Upload failed" end) Kerror
   end) ;;
  (* finally *)
  modify (set_isUploading false).

Inductive uv_state := UvReturned | UvAwaiting.

Definition uploadVideo_start : M uv_state :=
  d <- gets dom ;;
  match selected_file d with
  | None => showNotification "Please select a video file" Kerror ;; ret UvReturned
  | Some f => fetch ReqUpload ;; ret UvAwaiting
  end.

(** A submit event on [#videoUploadForm]: [bindEvents] registered
    [handleVideoUpload] and [initVideoUpload] registered [uploadVideo] on
    the same form, and the listeners run in registration order. *)
Definition onUploadSubmit : M (hu_state * uv_state) :=
  a <- handleVideoUpload_start ;;
  b <- uploadVideo_start ;;
  ret (a, b).

(** A click on [#processVideoBtn]: [processVideo] is registered twice, by
    [bindEvents] and by [initVideoUpload]. *)
Definition onProcessClick : M (pv_state * pv_state) :=
  a <- processVideo_start ;;
  b <- processVideo_start ;;
  ret (a, b).

(** ** Live preview: [showCameraPreviewModal] and [updateCameraPreviews] *)

Definition loadCameraSnapshot_start (cameraId : Z) : M unit :=
  fetch (ReqSnapshot cameraId).

(** Outcome of one [fetch(`/api/stream/${id}/snapshot`)] and its
    [response.blob()]. *)
Inductive snap_result :=
| SnapOk (objectUrl : string)
| SnapNotOk
| SnapNetErr.

Definition loadCameraSnapshot_resume (r : snap_result) : M unit :=
  match r with
  | SnapOk _ => modify (set_streamStatus "")   (* image shown, status hidden *)
  | SnapNotOk => showNotification "Failed to capture snapshot" Kerror
  | SnapNetErr => log "Error loading snapshot" ;; showNotification "Error capturing snapshot" Kerror
  end.

(** The [videoElement.onerror] handler installed by
    [showCameraPreviewModal(cameraData)]. *)
Definition stream_onerror (camera_id : Z) : M unit :=
  modify (set_streamStatus "Failed to load stream. Trying snapshot...") ;;
  loadCameraSnapshot_start camera_id.

(** The body of the per-camera [async (camera) => {...}] of
    [updateCameraPreviews], after its [await]. *)
Definition preview_of (c : camera) (r : snap_result) : camera * option string * cam_status :=
  match r with
  | SnapOk u => (c, Some u, Online)
  | SnapNotOk | SnapNetErr => (c, None, Offline)
  end.

Fixpoint fetch_all (cs : list camera) : M unit :=
  match cs with
  | [] => ret tt
  | c :: cs' => fetch (ReqSnapshot (cam_id c)) ;; fetch_all cs'
  end.

(** Synchronous prefix: every per-camera function runs up to its [await
    fetch], so all snapshot requests are issued before [Promise.all]
    suspends.  Returns the cameras mapped over, or [None] on an early
    [return]. *)
Definition updateCameraPreviews_start : M (option (list camera)) :=
  cs <- gets cameras ;;
  match cs with
  | [] => ret None
  | _ :: _ =>
      d <- gets dom ;;
      if negb (has_panel d) then ret None
      else
        modify (set_previewPanel PanelLoading) ;;
        fetch_all cs ;;
        ret (Some cs)
  end.

(** After [await Promise.all(previewPromises)]: [rs] are the per-camera
    outcomes in the order of [cs]. *)
Definition updateCameraPreviews_resume (cs : list camera) (rs : list snap_result) : M unit :=
  let previews := map (fun '(c, r) => preview_of c r) (combine cs rs) in
  modify (set_previewPanel (PanelRendered previews)).

(** ** Completion poller: [startProgressPolling]

    The closure state of one call of [startProgressPolling]: the local
    variables [progress] and [lastProgress], the page elements it writes,
    whether [pollInterval] is still set, the number of interval callbacks
    suspended at their [await fetch], whether the 10-minute timeout has
    fired, and the notifications shown.  [probe_succeeded] is a ghost field
    (not in the source) recording that a completion probe answered ok.

    Progress is a number of percentage points; an interval tick adds
    [Math.random() * 8 + 2], an arbitrary value [d] with [2 <= d <= 10]
    here. *)

Module Poller.

Record poller := mkPoller {
  progress : Z;
  lastProgress : Z;
  bar : Z;                 (* aria-valuenow / progressText *)
  status : string;         (* statusText.textContent *)
  interval_on : bool;
  inflight : nat;
  timeout_fired : bool;
  pnotes : list note;
  probe_succeeded : bool
}.

Inductive event :=
| Tick (d : Z)           (* the 800 ms interval fires *)
| Probe (ok : bool)      (* a suspended callback's probe settles *)
| Timeout.               (* the 600000 ms timer fires *)

Definition status_for (p : Z) (old : string) : string :=
  if p <? 20 then "Initializing video processing..."
  else if p <? 40 then "Analyzing video content and detecting faces..."
  else if p <? 60 then "Processing license plates and objects..."
  else if p <? 80 then "Applying privacy protection and blurring..."
  else if p <? 90 then "Finalizing video encoding..."
  else old.

(** State when [startProgressPolling] returns: [processVideo] set the bar
    to 0 and the status text. *)
Definition init : poller :=
  mkPoller 0 0 0 "Starting video processing..." true O false [] false.

Definition step (s : poller) (e : event) : poller :=
  match e with
  | Tick d =>
      if interval_on s then
        let p := if progress s <? 90 then
                   (let q := progress s + d in if 90 <? q then 90 else q)
                 else progress s in
        mkPoller p (lastProgress s) p (status_for p (status s)) true
                 (S (inflight s)) (timeout_fired s) (pnotes s) (probe_succeeded s)
      else s
  | Probe ok =>
      match inflight s with
      | O => s
      | S n =>
          if ok then
            mkPoller (progress s) (lastProgress s) 100 "Processing completed successfully!"
                     false n (timeout_fired s)
                     (pnotes s ++ [("Video processed successfully!", Ksuccess)]) true
          else
            let st := if Z.abs (progress s - lastProgress s) <? 1
                      then "Processing in progress... Please wait" else status s in
            mkPoller (progress s) (progress s) (bar s) st (interval_on s) n
                     (timeout_fired s) (pnotes s) (probe_succeeded s)
      end
  | Timeout =>
      if timeout_fired s then s
      else if progress s <? 100 then
        mkPoller (progress s) (lastProgress s) (bar s) "Processing timeout - check server logs"
                 false (inflight s) true
                 (pnotes s ++ [("Processing timeout - check server logs", Kwarning)])
                 (probe_succeeded s)
      else
        mkPoller (progress s) (lastProgress s) (bar s) (status s)
                 false (inflight s) true (pnotes s) (probe_succeeded s)
  end.

Definition run (s : poller) (tr : list event) : poller := fold_left step tr s.

(** Increments produced by [Math.random() * 8 + 2]. *)
Definition valid_event (e : event) : Prop :=
  match e with Tick d => 2 <= d <= 10 | _ => True end.

(** An increment [Math.random() * 8 + 2] can produce, as a test. *)
Definition tick_ok (d : Z) : bool := ((2 <=? d) && (d <=? 10))%bool.

(** What holds of the closure state at every point of a job. *)
Definition Inv (s : poller) : Prop :=
  0 <= progress s <= 90 /\
  (probe_succeeded s = true -> bar s = 100 /\ interval_on s = false) /\
  (probe_succeeded s = false -> bar s = progress s).

End Poller.

(** ** Sample pages and sessions *)

(** The constructor's initial field values on a page [d]. *)
Definition app_init (d : page) : app :=
  mkApp "/" d [] [] [] None 0 3 false false PanelInitial "" "" [] [] [] [].

Definition mp4_file := mkFile "clip.mp4" "video/mp4".
Definition txt_file := mkFile "notes.txt" "text/plain".

(** The index page with all elements present. *)
Definition page_full (f : option file) : page := mkPage true true true true true f.

(** An uploaded video is stored for processing. *)
Definition uploaded (s : app) : app := set_currentVideo (Some (mkVideoInfo "upload_1.mp4")) s.

Definition two_cameras : list camera := [mkCamera 1 "Gate"; mkCamera 2 "Yard"].

(** Running a list of monadic steps in sequence. *)
Definition snd_run {A} (m : M A) (s : app) : app := snd (m s).

(** Status of a preview item. *)
Definition item_status (it : camera * option string * cam_status) : cam_status :=
  let '(_, _, st) := it in st.
Definition item_camera (it : camera * option string * cam_status) : camera :=
  let '(c, _, _) := it in c.
Definition snap_status (r : snap_result) : cam_status :=
  match r with SnapOk _ => Online | _ => Offline end.

(** ** Further methods of [VideoAnalysisApp] *)

(** *** [formatDuration]

    The class body defines [formatDuration] twice; the later definition
    replaces the earlier one, so every caller runs this one.  Modelled for
    a whole, non-negative number of seconds. *)








(** *** String helpers: [includes] and [replace] with a string pattern *)

(** [s.includes(p)] *)
Fixpoint contains (p s : string) : bool :=
  String.prefix p s ||
  match s with EmptyString => false | String _ s' => contains p s' end.

Fixpoint str_drop (n : nat) (s : string) : string :=
  match n, s with
  | O, _ => s
  | S _, EmptyString => EmptyString
  | S k, String _ s' => str_drop k s'
  end.

(** [s.replace(p, r)] with a string [p]: only the first occurrence is
    replaced. *)
Fixpoint replace_first (p r s : string) : string :=
  if String.prefix p s then (r ++ str_drop (String.length p) s)%string
  else match s with
       | EmptyString => EmptyString
       | String c s' => String c (replace_first p r s')
       end.

(** The thumbnail of a recorded video in [renderVideos]:
    [`/api/thumbnails/${video.filename.replace('.mp4', '.jpg')}`]. *)
Definition thumbnail_name (filename : string) : string :=
  replace_first ".mp4" ".jpg" filename.
Definition thumbnail_url (filename : string) : string :=
  ("/api/thumbnails/" ++ thumbnail_name filename)%string.

(** *** [captureSnapshot]: name of the downloaded file *)

(** [.replace(/:/g, '-')] *)
Fixpoint replace_colons (s : string) : string :=
  match s with
  | EmptyString => EmptyString
  | String c s' => String (if Ascii.eqb c ":"%char then "-"%char else c) (replace_colons s')
  end.

(** [`camera_${cameraId}_snapshot_${iso.slice(0, 19).replace(/:/g, '-')}.jpg`]
    with [iso] the value of [new Date().toISOString()]. *)
Definition snapshot_download_name (cameraId : Z) (iso : string) : string :=
  ("camera_" ++ to_dec cameraId ++ "_snapshot_" ++
   replace_colons (String.substring 0 19 iso) ++ ".jpg")%string.

Inductive capture_response := CapOk | CapNotOk | CapNetErr.

(** The continuation of [captureSnapshot(cameraId)]: the name of the file
    offered for download, if any, and the notification shown. *)
Definition captureSnapshot_resume (cameraId : Z) (iso : string) (r : capture_response)
    : M (option string) :=
  match r with
  | CapOk =>
      showNotification "Snapshot captured and downloaded!" Ksuccess ;;
      ret (Some (snapshot_download_name cameraId iso))
  | CapNotOk => showNotification "Failed to capture snapshot" Kerror ;; ret None
  | CapNetErr => log "Error capturing snapshot" ;;
                 showNotification "Error capturing snapshot" Kerror ;; ret None
  end.

(** *** [toggleRecording]: the [#toggleRecording] button *)

Definition dq : string := String (Ascii.ascii_of_nat 34) EmptyString.

Record button := mkButton { btn_html : string; btn_class : string }.

Definition start_html : string :=
  ("<i class=" ++ dq ++ "fas fa-record-vinyl me-2" ++ dq ++ "></i>Start Recording")%string.
Definition stop_html : string :=
  ("<i class=" ++ dq ++ "fas fa-stop me-2" ++ dq ++ "></i>Stop Recording")%string.

Definition toggleRecording (btn : button) : button * note :=
  let isRecording := contains "Stop" (btn_html btn) in
  if isRecording then
    (mkButton start_html "btn btn-info btn-sm", ("Recording stopped", Kinfo))
  else
    (mkButton stop_html "btn btn-danger btn-sm", ("Recording started", Ksuccess)).

(** *** The retry timer of [handleApiError] *)

(** The [setTimeout] callback scheduled by [handleApiError(resource)];
    [true] when a request was issued. *)
Definition retry_fire (cb : timer_cb) : M bool :=
  match cb with
  | TRetry resource =>
      if String.eqb resource "cameras" then loadCameras_start
      else if String.eqb resource "videos" then
        d <- gets dom ;;
        if has_videosGrid d then loadVideos_start else ret false
      else if String.eqb resource "uploaded-videos" then loadUploadedVideos_start
      else ret false
  end.

(** [n] consecutive transient failures of [resource]. *)
Fixpoint fail_times (resource : string) (n : nat) : M unit :=
  match n with
  | O => ret tt
  | S k => handleApiError resource ;; fail_times resource k
  end.

(** *** [uploadVideo]: the continuation *)

Inductive uv_response :=
| UvOk (data : video_info)        (* response.ok *)
| UvNotOk (error : option string) (* !response.ok, body [{error}] *)
| UvNetErr.

(** [showVideoInfo(data)] stores [data] as [this.currentVideo]; the rest
    of it only fills page elements. *)
Definition uploadVideo_resume (r : uv_response) : M unit :=
  match r with
  | UvOk data =>
      modify (set_currentVideo (Some data)) ;;
      showNotification "Video uploaded successfully!" Ksuccess
  | UvNotOk e =>
      showNotification (match e with Some m => m | None => "Upload failed" end) Kerror
  | UvNetErr => log "Upload error" ;; showNotification "Upload failed" Kerror
  end.

(** * Properties *)

(** ** Helper lemmas *)

Lemma fetch_all_requests : forall cs s,
  fetch_all cs s = (tt, mkApp (pathname s) (dom s) (cameras s) (videos s) (uploadedVideos s)
      (currentVideo s) (retryCount s) (maxRetries s) (isUploading s) (isProcessing s)
      (previewPanel s) (streamStatus s) (processingStatus s) (notes s)
      (requests s ++ map (fun c => ReqSnapshot (cam_id c)) cs) (timers s) (polls s)).
Proof.
  induction cs as [| c cs IH]; intros s; simpl.
  - rewrite app_nil_r. destruct s; reflexivity.
  - unfold bind, fetch, modify. rewrite IH. simpl. rewrite <- app_assoc. reflexivity.
Qed.

(** A [finally] block that clears a guard clears it whatever the [try]
    block did. *)
Lemma finally_releases_upload : forall {A} (m : M A) s,
  isUploading (snd_run (m ;; modify (set_isUploading false)) s) = false.
Proof. intros A m s. unfold snd_run, bind. destruct (m s); reflexivity. Qed.

Lemma finally_releases_processing : forall {A} (m : M A) s,
  isProcessing (snd_run (m ;; modify (set_isProcessing false)) s) = false.
Proof. intros A m s. unfold snd_run, bind. destruct (m s); reflexivity. Qed.

(** Case split on the first [if] of a hypothesis. *)
Ltac case_if_in H :=
  match type of H with context [if ?b then _ else _] => destruct b end.

(** ** C1 *)

(** C1 (code_bug): the guards are not released on every exit path.
    [processVideo] on a page without the depersonalization checkbox and
    [handleVideoUpload] with a file of a type outside [allowedTypes] return
    early after acquiring their guard; the flag stays [true] and every
    later invocation is rejected as a duplicate. *)
Theorem guard_left_held_on_early_return :
  let s1 := snd_run processVideo_start
              (uploaded (app_init (mkPage false false true true true None))) in
  isProcessing s1 = true /\ processVideo_start s1 = (PvIgnored, s1) /\
  let u1 := snd_run handleVideoUpload_start (app_init (page_full (Some txt_file))) in
  isUploading u1 = true /\ handleVideoUpload_start u1 = (HuIgnored, u1).
Proof. vm_compute. repeat split. Qed.

(** ** C2 *)

(** C2 (code_bug): after a successful completion probe, the 10-minute
    timer still fires its timeout effects: [progress] is never set to 100
    on success, so the guard [progress < 100] of the timeout callback holds
    and both the success and the timeout notification are shown. *)
Theorem timeout_fires_after_success :
  let s := Poller.run Poller.init [Poller.Tick 5; Poller.Probe true; Poller.Timeout] in
  Poller.pnotes s = [("Video processed successfully!", Ksuccess);
                     ("Processing timeout - check server logs", Kwarning)] /\
  Poller.status s = "Processing timeout - check server logs".
Proof. vm_compute. split; reflexivity. Qed.

(** ** C7 *)

(** C7 (code_bug): when [POST /api/process-video] is rejected with a body
    [{error: "Video file not found"}], the notification shown is the
    generic "Processing failed"; the backend message only reaches the
    unused [error.message]. *)
Theorem process_reject_drops_backend_message : forall s,
  notes (snd_run (processVideo_resume (PReject (Some "Video file not found"))) s) =
    (notes s ++ [("Processing failed", Kerror)])%list /\
  processingStatus (snd_run (processVideo_resume (PReject (Some "Video file not found"))) s) =
    "Processing failed".
Proof. intros s. destruct s; split; reflexivity. Qed.

(** ** C8 *)

(** C8 (code_bug): a submit of the upload form with a [text/plain] file.
    [handleVideoUpload] shows the validation warning but keeps
    [isUploading] set, and the second listener [uploadVideo], which checks
    only that a file is chosen, sends [POST /api/upload-video]. *)
Theorem upload_invalid_type_is_sent :
  let '(r, s) := onUploadSubmit (app_init (page_full (Some txt_file))) in
  r = (HuReturned, UvAwaiting) /\
  requests s = [ReqUpload] /\
  isUploading s = true /\
  notes s = [("Please select a valid video file (MP4, AVI, MOV, MKV, WEBM)", Kwarning)].
Proof. vm_compute. repeat split. Qed.

(** ** C3 *)

(** C3, counterexample: the [processing] guard is released in the
    [finally] of [processVideo] as soon as the submission returns, while
    the polling loop of job "processed_a.mp4" keeps running; a second
    submission is then accepted and a second polling loop starts. *)
Lemma second_job_accepted_while_polling :
  let s0 := uploaded (app_init (page_full (Some mp4_file))) in
  let s1 := snd_run (processVideo_start ;; processVideo_resume (PAccept "processed_a.mp4")) s0 in
  fst (processVideo_start s1) = PvAwaiting /\
  polls (snd_run (processVideo_start ;; processVideo_resume (PAccept "processed_b.mp4")) s1) =
    ["processed_a.mp4"; "processed_b.mp4"].
Proof. vm_compute. split; reflexivity. Qed.

(** C3, as the code has it: the [processing] guard is held from an
    accepted [processVideo] call until its [POST /api/process-video]
    settles, and rejects every call in between without any effect; it is
    released when the submission settles, whatever the response.  The
    [uploading] guard likewise rejects every [handleVideoUpload] call
    while an accepted one awaits its upload response. *)
Theorem single_flight_guards : forall s s1 r u u1 ur lr,
  (isProcessing s = false -> processVideo_start s = (PvAwaiting, s1) ->
     isProcessing s1 = true /\ processVideo_start s1 = (PvIgnored, s1) /\
     isProcessing (snd_run (processVideo_resume r) s1) = false) /\
  (isUploading u = false -> handleVideoUpload_start u = (HuAwaiting, u1) ->
     isUploading u1 = true /\ handleVideoUpload_start u1 = (HuIgnored, u1) /\
     isUploading (snd_run (handleVideoUpload_resume ur lr) u1) = false).
Proof.
  intros s s1 r u u1 ur lr. split.
  - intros Hf Hs.
    unfold processVideo_start, bind, gets, modify, ret, log, fetch, showNotification in Hs. rewrite Hf in Hs. simpl in Hs.
    destruct (currentVideo s) as [v|]; simpl in Hs; [| discriminate].
    destruct (has_checkbox (dom s)); simpl in Hs; [| discriminate].
    destruct (has_progress (dom s)); simpl in Hs; [| discriminate].
    injection Hs as <-. repeat split.
    apply finally_releases_processing.
  - intros Hf Hs.
    unfold handleVideoUpload_start, bind, gets, modify, ret, log, fetch, showNotification in Hs.
    rewrite Hf in Hs. simpl in Hs.
    destruct (selected_file (dom u)) as [f|]; simpl in Hs; [| discriminate].
    case_if_in Hs; [discriminate |].
    injection Hs as <-. repeat split.
    apply finally_releases_upload.
Qed.

Lemma single_flight_guards_witness :
  let s := uploaded (app_init (page_full (Some mp4_file))) in
  let u := app_init (page_full (Some mp4_file)) in
  (isProcessing (snd_run processVideo_start s) = true /\
   processVideo_start (snd_run processVideo_start s) =
     (PvIgnored, snd_run processVideo_start s) /\
   isProcessing (snd_run (processVideo_resume PNetErr) (snd_run processVideo_start s)) = false) /\
  (isUploading (snd_run handleVideoUpload_start u) = true /\
   handleVideoUpload_start (snd_run handleVideoUpload_start u) =
     (HuIgnored, snd_run handleVideoUpload_start u) /\
   isUploading (snd_run (handleVideoUpload_resume (UNetErr "Failed to fetch") FNetErr)
                  (snd_run handleVideoUpload_start u)) = false).
Proof.
  intros s u.
  destruct (single_flight_guards s (snd_run processVideo_start s) PNetErr
              u (snd_run handleVideoUpload_start u) (UNetErr "Failed to fetch") FNetErr)
    as [H1 H2].
  split; [apply H1 | apply H2]; vm_compute; reflexivity.
Defined.

(** ** C4 *)

Module PollerFacts.
Import Poller.

Lemma Inv_init : Inv init.
Proof. unfold Inv; simpl; repeat split; try lia; discriminate. Qed.

Lemma step_Inv : forall s e, valid_event e -> Inv s ->
  Inv (step s e) /\ bar s <= bar (step s e).
Proof.
  intros s e He Hi. pose proof Hi as (Hp & Hok & Hnok).
  destruct e as [d | ok |]; simpl in *.
  - destruct (interval_on s) eqn:Ei.
    + destruct (probe_succeeded s) eqn:Es.
      { destruct (Hok eq_refl) as [_ Hc]; congruence. }
      specialize (Hnok eq_refl).
      destruct (Z.ltb_spec (progress s) 90);
        [destruct (Z.ltb_spec 90 (progress s + d)) |];
        unfold Inv; simpl; rewrite ?Es; repeat split; intros; try discriminate; lia.
    + split; [exact Hi | lia].
  - destruct (inflight s) as [| n].
    + split; [exact Hi | lia].
    + destruct ok; unfold Inv; simpl.
      * repeat split; try lia; try discriminate.
        destruct (probe_succeeded s); [destruct (Hok eq_refl); lia | rewrite Hnok; lia].
      * split; [split; [exact Hp | split; [exact Hok | exact Hnok]] | lia].
  - destruct (timeout_fired s).
    + split; [exact Hi | lia].
    + destruct (Z.ltb_spec (progress s) 100); unfold Inv; simpl;
        (split; [split; [exact Hp | split; [intros Hs; split; [apply (Hok Hs) | reflexivity] | exact Hnok]] | lia]).
Qed.

Lemma run_Inv : forall tr s, Forall valid_event tr -> Inv s -> Inv (run s tr).
Proof.
  induction tr as [| e tr IH]; intros s Hv Hi; simpl; auto.
  inversion Hv; subst. apply IH; auto. apply step_Inv; auto.
Qed.

End PollerFacts.

(** C4: over the whole life of one polling job the displayed progress
    (the bar and its text) never decreases; the synthetic [progress] stays
    at most 90, so the displayed value is exactly 100 if and only if a
    completion probe has answered ok; the timeout leaves the displayed
    value unchanged, and below 100 when no probe succeeded. *)
Theorem progress_monotone_100_iff_confirmed : forall tr e,
  Forall Poller.valid_event tr -> Poller.valid_event e ->
  let s := Poller.run Poller.init tr in
  let s' := Poller.step s e in
  Poller.bar s <= Poller.bar s' /\
  Poller.progress s' <= 90 /\
  (Poller.bar s' = 100 <-> Poller.probe_succeeded s' = true) /\
  (e = Poller.Timeout -> Poller.bar s' = Poller.bar s /\
     (Poller.probe_succeeded s' = false -> Poller.bar s' < 100)).
Proof.
  intros tr e Htr He s s'.
  assert (Hs : Poller.Inv s) by (apply PollerFacts.run_Inv; auto using PollerFacts.Inv_init).
  destruct (PollerFacts.step_Inv s e He Hs) as [(Hp & Hok & Hnok) Hmono].
  fold s' in Hp, Hok, Hnok, Hmono.
  split; [exact Hmono |].
  split; [lia |].
  split.
  - split.
    + intros H100. destruct (Poller.probe_succeeded s') eqn:E; auto.
      specialize (Hnok eq_refl); lia.
    + intros Hc. destruct (Hok Hc); lia.
  - intros ->. split.
    + subst s'. simpl. destruct (Poller.timeout_fired s); auto.
      destruct (Z.ltb_spec (Poller.progress s) 100); reflexivity.
    + intros Hc. specialize (Hnok Hc); lia.
Qed.

Lemma progress_monotone_100_iff_confirmed_witness :
  let s := Poller.run Poller.init [Poller.Tick 5] in
  let s' := Poller.step s (Poller.Probe true) in
  Poller.bar s <= Poller.bar s' /\
  Poller.progress s' <= 90 /\
  (Poller.bar s' = 100 <-> Poller.probe_succeeded s' = true) /\
  (Poller.Probe true = Poller.Timeout -> Poller.bar s' = Poller.bar s /\
     (Poller.probe_succeeded s' = false -> Poller.bar s' < 100)).
Proof.
  apply (progress_monotone_100_iff_confirmed [Poller.Tick 5] (Poller.Probe true)).
  - repeat constructor; simpl; lia.
  - exact I.
Defined.

(** ** C5 *)

(** C5, counterexample: [this.retryCount] is one field for all
    resources.  A failed cameras load followed by a failed videos load
    leaves the counter at 2, and the first retry of videos is scheduled
    after 2 s, as its second attempt. *)
Lemma retry_counter_shared_across_keys :
  let s := snd_run (loadCameras_resume FNetErr ;; loadVideos_resume FNetErr)
                   (app_init (page_full None)) in
  retryCount s = 2 /\
  timers s = [(1000, TRetry "cameras"); (2000, TRetry "videos")].
Proof. vm_compute. split; reflexivity. Qed.

(** C5, as the code has it: retry state is the single counter
    [retryCount]; a failure of any resource advances (or, at the maximum,
    resets) it in the same way whichever resource failed, and a
    successful cameras load resets it to zero. *)
Theorem retry_counter_single_shared : forall s k1 k2 cs,
  retryCount (snd_run (handleApiError k1) s) = retryCount (snd_run (handleApiError k2) s) /\
  retryCount (snd_run (loadCameras_resume FNetErr) s) = retryCount (snd_run (handleApiError k1) s) /\
  retryCount (snd_run (loadVideos_resume FNetErr) s) = retryCount (snd_run (handleApiError k1) s) /\
  retryCount (snd_run (loadUploadedVideos_resume FNetErr) s) = retryCount (snd_run (handleApiError k1) s) /\
  retryCount (snd_run (loadCameras_resume (FOk cs)) s) = 0.
Proof.
  intros s k1 k2 cs. destruct s as [pa d ca vi up cv rc mx iu ip pp ss ps no rq ti po].
  unfold snd_run, loadCameras_resume, loadVideos_resume, loadUploadedVideos_resume.
  unfold handleApiError, bind, gets, modify, ret, log, setTimeout, showNotification.
  simpl. destruct (rc <? mx); repeat split.
Qed.

(** ** C6 *)

(** C6: one transient failure.  Below the maximum the counter is
    incremented and a retry is scheduled after [1000 * attempt] ms with no
    notification; at the maximum exactly one error notification is shown,
    no retry is scheduled and the counter is reset to 0.  The counter stays
    within [0, maxRetries]. *)
Theorem handleApiError_backoff : forall k s,
  0 <= retryCount s <= maxRetries s ->
  let s' := snd_run (handleApiError k) s in
  (retryCount s < maxRetries s ->
     retryCount s' = retryCount s + 1 /\
     timers s' = (timers s ++ [(1000 * (retryCount s + 1), TRetry k)])%list /\
     notes s' = notes s) /\
  (retryCount s = maxRetries s ->
     retryCount s' = 0 /\ timers s' = timers s /\
     notes s' = (notes s ++ [(("Failed to load " ++ k ++ " after " ++
                               to_dec (maxRetries s) ++ " attempts")%string, Kerror)])%list) /\
  0 <= retryCount s' <= maxRetries s.
Proof.
  intros k s Hb s'. subst s'.
  destruct s as [pa d ca vi up cv rc mx iu ip pp ss ps no rq ti po]; simpl in *.
  unfold snd_run, handleApiError, bind, gets, modify, ret, log, setTimeout, showNotification.
  simpl.
  destruct (Z.ltb_spec rc mx); simpl.
  - split; [intros _; repeat split | split; [intros; lia | lia]].
  - split; [intros; lia | split; [intros _; repeat split | lia]].
Qed.

Lemma handleApiError_backoff_witness :
  let s := set_retryCount 2 (app_init (page_full None)) in
  let s' := snd_run (handleApiError "cameras") s in
  (retryCount s < maxRetries s ->
     retryCount s' = retryCount s + 1 /\
     timers s' = (timers s ++ [(1000 * (retryCount s + 1), TRetry "cameras")])%list /\
     notes s' = notes s) /\
  (retryCount s = maxRetries s ->
     retryCount s' = 0 /\ timers s' = timers s /\
     notes s' = (notes s ++ [(("Failed to load " ++ "cameras" ++ " after " ++
                               to_dec (maxRetries s) ++ " attempts")%string, Kerror)])%list) /\
  0 <= retryCount s' <= maxRetries s.
Proof.
  apply (handleApiError_backoff "cameras" (set_retryCount 2 (app_init (page_full None)))).
  vm_compute. split; discriminate.
Defined.

(** ** C9 *)

Lemma previews_cameras : forall cs rs, List.length rs = List.length cs ->
  map item_camera (map (fun '(c, r) => preview_of c r) (combine cs rs)) = cs.
Proof.
  induction cs as [| c cs IH]; intros [| r rs] Hl; simpl in *; try discriminate; auto.
  f_equal; [destruct r; reflexivity | apply IH; lia].
Qed.

Lemma previews_status : forall cs rs, List.length rs = List.length cs ->
  map item_status (map (fun '(c, r) => preview_of c r) (combine cs rs)) = map snap_status rs.
Proof.
  induction cs as [| c cs IH]; intros [| r rs] Hl; simpl in *; try discriminate; auto.
  f_equal; [destruct r; reflexivity | apply IH; lia].
Qed.

(** C9: a stream error for camera [c] issues the snapshot request for [c]
    and marks nothing offline (no notification, preview panel untouched).
    A periodic refresh issues one snapshot request per camera, and once
    all of them settle renders every camera, in order, each tagged online
    exactly when its own snapshot was obtained. *)
Theorem preview_degrades_per_camera : forall c s rs,
  cameras s <> [] -> has_panel (dom s) = true -> List.length rs = List.length (cameras s) ->
  (requests (snd_run (stream_onerror c) s) = (requests s ++ [ReqSnapshot c])%list /\
   notes (snd_run (stream_onerror c) s) = notes s /\
   previewPanel (snd_run (stream_onerror c) s) = previewPanel s) /\
  (fst (updateCameraPreviews_start s) = Some (cameras s) /\
   requests (snd_run updateCameraPreviews_start s) =
     (requests s ++ map (fun c => ReqSnapshot (cam_id c)) (cameras s))%list /\
   exists items,
     previewPanel (snd_run (updateCameraPreviews_resume (cameras s) rs)
                     (snd_run updateCameraPreviews_start s)) = PanelRendered items /\
     map item_camera items = cameras s /\
     map item_status items = map snap_status rs).
Proof.
  intros c s rs Hne Hp Hl.
  split.
  - destruct s; repeat split.
  - unfold snd_run, updateCameraPreviews_start, bind, gets, modify, ret.
    destruct (cameras s) as [| c0 cs] eqn:Ec; [congruence |].
    rewrite Hp. cbn -[fetch_all]. rewrite fetch_all_requests. simpl.
    split; [reflexivity | split; [destruct s; simpl in *; subst; reflexivity |]].
    exists (map (fun '(c, r) => preview_of c r) (combine (c0 :: cs) rs)). split; [reflexivity |].
    split; [apply previews_cameras | apply previews_status]; exact Hl.
Qed.

Lemma preview_degrades_per_camera_witness :
  let s := set_cameras two_cameras (app_init (page_full None)) in
  (requests (snd_run (stream_onerror 1) s) = (requests s ++ [ReqSnapshot 1])%list /\
   notes (snd_run (stream_onerror 1) s) = notes s /\
   previewPanel (snd_run (stream_onerror 1) s) = previewPanel s) /\
  (fst (updateCameraPreviews_start s) = Some (cameras s) /\
   requests (snd_run updateCameraPreviews_start s) =
     (requests s ++ map (fun c => ReqSnapshot (cam_id c)) (cameras s))%list /\
   exists items,
     previewPanel (snd_run (updateCameraPreviews_resume (cameras s) [SnapNotOk; SnapOk "blob:2"])
                     (snd_run updateCameraPreviews_start s)) = PanelRendered items /\
     map item_camera items = cameras s /\
     map item_status items = map snap_status [SnapNotOk; SnapOk "blob:2"]).
Proof.
  apply (preview_degrades_per_camera 1 (set_cameras two_cameras (app_init (page_full None)))
           [SnapNotOk; SnapOk "blob:2"]); vm_compute; [discriminate | reflexivity | reflexivity].
Defined.

(** ** C10 *)

(** C10: with an empty camera list the periodic refresh returns at once:
    the whole state, requests and preview panel included, is unchanged. *)
Theorem update_previews_noop_without_cameras : forall s,
  cameras s = [] -> updateCameraPreviews_start s = (None, s).
Proof.
  intros s He. unfold updateCameraPreviews_start, bind, gets, ret. rewrite He. reflexivity.
Qed.

Lemma update_previews_noop_without_cameras_witness :
  cameras (app_init (page_full None)) = [] /\
  updateCameraPreviews_start (app_init (page_full None)) = (None, app_init (page_full None)).
Proof.
  split; [reflexivity | apply update_previews_noop_without_cameras; reflexivity].
Defined.

(** * Further properties of the controller *)

(** ** String facts *)

Section StringFacts.

Lemma str_app_assoc : forall x y z : string, ((x ++ y) ++ z = x ++ (y ++ z))%string.
Proof. induction x as [| c x IH]; intros; simpl; [reflexivity | rewrite IH; reflexivity]. Qed.

Lemma str_length_app : forall x y : string,
  String.length (x ++ y) = (String.length x + String.length y)%nat.
Proof. induction x as [| c x IH]; intros; simpl; [reflexivity | rewrite IH; reflexivity]. Qed.





Lemma colon_code : nat_of_ascii ":" = 58%nat.
Proof. reflexivity. Qed.

Lemma digit_not_colon : forall n, ascii_of_nat (48 + Z.to_nat (n mod 10)) <> ":"%char.
Proof.
  intros n H. pose proof (Z.mod_pos_bound n 10 ltac:(lia)) as Hb.
  apply (f_equal nat_of_ascii) in H. rewrite nat_ascii_embedding, colon_code in H by lia. lia.
Qed.

Lemma contains_colon_cons : forall c s,
  contains ":" (String c s) = (Ascii.eqb c ":" || contains ":" s)%bool.
Proof.
  intros c s.
  change (contains ":" (String c s)) with ((String.prefix ":" (String c s) || contains ":" s)%bool).
  f_equal.
  change (String.prefix ":" (String c s))
    with (match ascii_dec ":" c with left _ => String.prefix "" s | right _ => false end).
  assert (He : String.prefix "" s = true) by (destruct s; reflexivity).
  destruct (ascii_dec ":" c) as [Heq | Hne]; destruct (Ascii.eqb_spec c ":"); congruence.
Qed.

Lemma contains_colon_app : forall x y,
  contains ":" (x ++ y) = (contains ":" x || contains ":" y)%bool.
Proof.
  induction x as [| c x IH]; intros y; [reflexivity |].
  cbn [String.append]. rewrite !contains_colon_cons, IH. apply orb_assoc.
Qed.

Lemma digits_no_colon : forall f n acc,
  contains ":" acc = false -> contains ":" (digits f n acc) = false.
Proof.
  induction f as [| f IH]; intros n acc H; cbn [digits String.append]; [exact H |].
  assert (Hd : contains ":" (String (ascii_of_nat (48 + Z.to_nat (n mod 10))) acc) = false).
  { rewrite contains_colon_cons, H.
    destruct (Ascii.eqb _ _) eqn:E; [apply Ascii.eqb_eq, digit_not_colon in E; contradiction | reflexivity]. }
  destruct (n <? 10); [exact Hd | apply IH; exact Hd].
Qed.

Lemma to_dec_no_colon : forall n, contains ":" (to_dec n) = false.
Proof. intros n. apply digits_no_colon. reflexivity. Qed.



Lemma prefix_self : forall p y, String.prefix p (p ++ y) = true.
Proof.
  induction p as [| a p IH]; intros y; [destruct y; reflexivity |].
  simpl. destruct (ascii_dec a a) as [_ | Hn]; [apply IH | congruence].
Qed.

Lemma drop_self : forall p y, str_drop (String.length p) (p ++ y) = y.
Proof. induction p as [| a p IH]; intros y; [reflexivity | apply IH]. Qed.

Lemma prefix_app_short : forall p x y,
  String.prefix p (x ++ y) = true -> (String.length p <= String.length x)%nat ->
  String.prefix p x = true.
Proof.
  induction p as [| a p IH]; intros x y H Hl; [destruct x; reflexivity |].
  destruct x as [| b x]; simpl in Hl; [lia |].
  simpl in H |- *. destruct (ascii_dec a b); [apply (IH x y H); lia | discriminate].
Qed.

Lemma replace_first_eq : forall p r s,
  replace_first p r s =
    if String.prefix p s then (r ++ str_drop (String.length p) s)%string
    else match s with
         | EmptyString => EmptyString
         | String c s' => String c (replace_first p r s')
         end.
Proof. intros p r s. destruct s; reflexivity. Qed.

Lemma contains_cons : forall p c s,
  contains p (String c s) = (String.prefix p (String c s) || contains p s)%bool.
Proof. reflexivity. Qed.

Lemma replace_first_absent : forall p r s, contains p s = false -> replace_first p r s = s.
Proof.
  intros p r. induction s as [| c s IH]; intros H; rewrite replace_first_eq.
  - change (contains p "") with (String.prefix p "" || false)%bool in H.
    rewrite orb_false_r in H. rewrite H. reflexivity.
  - rewrite contains_cons in H. apply orb_false_elim in H as [Hp Hs].
    rewrite Hp, IH by exact Hs. reflexivity.
Qed.

(** Replacing at the first occurrence: [p = init ++ l] with one last
    character, and [p] does not start anywhere inside [a]. *)
Lemma replace_first_at : forall p init l r b a,
  p = (init ++ l)%string -> String.length l = 1%nat ->
  contains p (a ++ init) = false ->
  replace_first p r (a ++ p ++ b) = (a ++ r ++ b)%string.
Proof.
  intros p init l r b a Hp Hl. induction a as [| c a IH]; intros H.
  - cbn [String.append]. rewrite replace_first_eq, prefix_self, drop_self. reflexivity.
  - cbn [String.append] in H |- *. rewrite contains_cons in H.
    apply orb_false_elim in H as [Hpre Hrest].
    rewrite replace_first_eq.
    destruct (String.prefix p (String c (a ++ p ++ b))) eqn:E.
    + exfalso.
      assert (Heq : String c (a ++ p ++ b) = (String c (a ++ init) ++ (l ++ b))%string).
      { cbn [String.append]. rewrite Hp, !str_app_assoc. reflexivity. }
      rewrite Heq in E. apply prefix_app_short in E.
      * congruence.
      * rewrite Hp, str_length_app. cbn [String.length]. rewrite str_length_app. lia.
    + rewrite IH by exact Hrest. reflexivity.
Qed.

Lemma replace_colons_no_colon : forall s, contains ":" (replace_colons s) = false.
Proof.
  induction s as [| c s IH]; [reflexivity |].
  cbn [replace_colons]. rewrite contains_colon_cons, IH, orb_false_r.
  destruct (Ascii.eqb c ":") eqn:E; [reflexivity | exact E].
Qed.

End StringFacts.

(** ** formatDuration *)



(** ** renderVideos: thumbnail names *)

(** The thumbnail path replaces the first ".mp4" of the file name by
    ".jpg" and keeps the rest, a later ".mp4" included; a name with no
    ".mp4" is used unchanged. *)
Theorem thumbnail_name_first_mp4 : forall a b s,
  contains ".mp4" (a ++ ".mp") = false -> contains ".mp4" s = false ->
  thumbnail_name (a ++ ".mp4" ++ b) = (a ++ ".jpg" ++ b)%string /\ thumbnail_name s = s.
Proof.
  intros a b s Ha Hs. unfold thumbnail_name. split.
  - apply (replace_first_at ".mp4" ".mp" "4"); [reflexivity | reflexivity | exact Ha].
  - apply replace_first_absent. exact Hs.
Qed.

Lemma thumbnail_name_first_mp4_witness :
  contains ".mp4" ("a" ++ ".mp") = false /\ contains ".mp4" "clip.avi" = false /\
  thumbnail_name ("a" ++ ".mp4" ++ ".mp4") = ("a" ++ ".jpg" ++ ".mp4")%string /\
  thumbnail_name "clip.avi" = "clip.avi".
Proof.
  assert (H1 : contains ".mp4" ("a" ++ ".mp") = false) by reflexivity.
  assert (H2 : contains ".mp4" "clip.avi" = false) by reflexivity.
  destruct (thumbnail_name_first_mp4 "a" ".mp4" "clip.avi" H1 H2) as [H3 H4].
  exact (conj H1 (conj H2 (conj H3 H4))).
Defined.

(** ** captureSnapshot *)

(** A file is offered for download only on an ok response, together with
    the success notification, and its name has no colon whatever the
    camera id and the timestamp. *)
Theorem captureSnapshot_name_has_no_colon : forall cameraId iso r s name,
  fst (captureSnapshot_resume cameraId iso r s) = Some name ->
  r = CapOk /\ contains ":" name = false /\
  notes (snd (captureSnapshot_resume cameraId iso r s)) =
    (notes s ++ [("Snapshot captured and downloaded!"%string, Ksuccess)])%list.
Proof.
  intros id iso r s name H.
  destruct r; simpl in H; try discriminate.
  injection H as <-. split; [reflexivity | split; [| reflexivity]].
  unfold snapshot_download_name.
  rewrite !contains_colon_app, to_dec_no_colon, replace_colons_no_colon. reflexivity.
Qed.

Lemma captureSnapshot_name_has_no_colon_witness :
  fst (captureSnapshot_resume 7 "2024-05-01T12:34:56.789Z" CapOk (app_init (page_full None)))
    = Some "camera_7_snapshot_2024-05-01T12-34-56.jpg" /\
  contains ":" "camera_7_snapshot_2024-05-01T12-34-56.jpg" = false.
Proof.
  assert (H : fst (captureSnapshot_resume 7 "2024-05-01T12:34:56.789Z" CapOk (app_init (page_full None)))
    = Some "camera_7_snapshot_2024-05-01T12-34-56.jpg") by (vm_compute; reflexivity).
  split; [exact H |].
  exact (proj1 (proj2 (captureSnapshot_name_has_no_colon 7 "2024-05-01T12:34:56.789Z" CapOk
    (app_init (page_full None)) _ H))).
Defined.

(** ** toggleRecording *)

(** Whatever the button shows at first, toggling alternates between two
    button states: the third press restores the state after the first, and
    the notifications alternate between started and stopped. *)
Theorem toggleRecording_alternates : forall b,
  let (b1, n1) := toggleRecording b in
  let (b2, n2) := toggleRecording b1 in
  let (b3, n3) := toggleRecording b2 in
  b3 = b1 /\ b2 <> b1 /\
  ((n1, n2, n3) = (("Recording started"%string, Ksuccess), ("Recording stopped"%string, Kinfo),
                   ("Recording started"%string, Ksuccess)) \/
   (n1, n2, n3) = (("Recording stopped"%string, Kinfo), ("Recording started"%string, Ksuccess),
                   ("Recording stopped"%string, Kinfo))).
Proof.
  intros b. destruct (toggleRecording b) as [b1 n1] eqn:E.
  unfold toggleRecording in E.
  destruct (contains "Stop" (btn_html b)); injection E as <- <-; vm_compute.
  - split; [reflexivity | split; [discriminate | right; reflexivity]].
  - split; [reflexivity | split; [discriminate | left; reflexivity]].
Qed.

(** ** handleApiError: the whole retry schedule *)

Lemma snd_run_seq : forall {A B} (m : M A) (k : M B) s,
  snd_run (m ;; k) s = snd_run k (snd_run m s).
Proof. intros A B m k s. unfold snd_run, bind. destruct (m s); reflexivity. Qed.

Lemma handleApiError_below : forall k s, retryCount s < maxRetries s ->
  snd_run (handleApiError k) s =
    add_timer (1000 * (retryCount s + 1), TRetry k) (set_retryCount (retryCount s + 1) s).
Proof.
  intros k s H. unfold snd_run, handleApiError, bind, log, ret, gets, modify, setTimeout.
  cbv beta iota zeta. rewrite (proj2 (Z.ltb_lt _ _) H). reflexivity.
Qed.

Lemma handleApiError_at_max : forall k s, maxRetries s <= retryCount s ->
  snd_run (handleApiError k) s =
    set_retryCount 0 (add_note (("Failed to load " ++ k ++ " after " ++ to_dec (maxRetries s)
                                 ++ " attempts")%string, Kerror) s).
Proof.
  intros k s H. unfold snd_run, handleApiError, bind, log, ret, gets, modify, showNotification.
  cbv beta iota zeta. rewrite (proj2 (Z.ltb_ge _ _) H). reflexivity.
Qed.

Lemma fail_times_below : forall k n s, retryCount s + Z.of_nat n <= maxRetries s ->
  let s' := snd_run (fail_times k n) s in
  retryCount s' = retryCount s + Z.of_nat n /\ maxRetries s' = maxRetries s /\
  notes s' = notes s /\ requests s' = requests s /\
  timers s' = (timers s ++ map (fun i => (1000 * (retryCount s + Z.of_nat i), TRetry k)) (seq 1 n))%list.
Proof.
  intros k n. induction n as [| n IH]; intros s H.
  - cbn. rewrite app_nil_r. repeat split; lia.
  - cbv zeta. cbn [fail_times]. rewrite snd_run_seq, handleApiError_below by lia.
    destruct (IH (add_timer (1000 * (retryCount s + 1), TRetry k) (set_retryCount (retryCount s + 1) s)))
      as (H1 & H2 & H3 & H4 & H5); [cbn [retryCount maxRetries add_timer set_retryCount]; lia |].
    cbn [retryCount maxRetries notes requests timers add_timer set_retryCount] in H1, H2, H3, H4, H5.
    repeat split; [rewrite H1; lia | exact H2 | exact H3 | exact H4 |].
    rewrite H5, <- app_assoc. f_equal.
    cbn [seq map List.app]. rewrite <- (seq_shift n 1), map_map. f_equal.
    apply map_ext. intros i. f_equal. f_equal. lia.
Qed.

Lemma fail_times_snoc : forall k n s,
  snd_run (fail_times k (S n)) s = snd_run (handleApiError k) (snd_run (fail_times k n) s).
Proof.
  intros k n. induction n as [| n IH]; intros s.
  - cbn [fail_times]. rewrite snd_run_seq. reflexivity.
  - change (fail_times k (S (S n))) with (handleApiError k ;; fail_times k (S n)).
    rewrite snd_run_seq, IH. cbn [fail_times]. rewrite snd_run_seq. reflexivity.
Qed.

(** From a reset counter and [maxRetries = n], [n + 1] consecutive
    failures of one resource schedule retries after 1000, 2000, ...,
    [1000 * n] ms, then show one error notification naming the resource
    and [n], and leave the counter reset; no request is sent meanwhile. *)
Theorem retry_schedule_then_give_up : forall resource n s,
  retryCount s = 0 -> maxRetries s = Z.of_nat n ->
  let s' := snd_run (fail_times resource (S n)) s in
  timers s' = (timers s ++ map (fun i => (1000 * Z.of_nat i, TRetry resource)) (seq 1 n))%list /\
  notes s' = (notes s ++ [(("Failed to load " ++ resource ++ " after " ++ to_dec (Z.of_nat n)
                            ++ " attempts")%string, Kerror)])%list /\
  retryCount s' = 0 /\ requests s' = requests s.
Proof.
  intros k n s H0 Hm. cbv zeta. rewrite fail_times_snoc.
  destruct (fail_times_below k n s ltac:(lia)) as (H1 & H2 & H3 & H4 & H5).
  rewrite handleApiError_at_max by lia. cbn.
  rewrite H2, H3, H4, H5, Hm, H0. repeat split.
Qed.

Lemma retry_schedule_then_give_up_witness :
  retryCount (app_init (page_full None)) = 0 /\ maxRetries (app_init (page_full None)) = Z.of_nat 3 /\
  timers (snd_run (fail_times "cameras" 4) (app_init (page_full None))) =
    [(1000, TRetry "cameras"); (2000, TRetry "cameras"); (3000, TRetry "cameras")].
Proof.
  assert (H0 : retryCount (app_init (page_full None)) = 0) by reflexivity.
  assert (Hm : maxRetries (app_init (page_full None)) = Z.of_nat 3) by reflexivity.
  split; [exact H0 | split; [exact Hm |]].
  exact (proj1 (retry_schedule_then_give_up "cameras" 3 (app_init (page_full None)) H0 Hm)).
Defined.

(** ** The retry timer callback *)

(** A fired retry timer either does nothing or re-issues exactly the GET
    request of the resource it was scheduled for; it touches no other part
    of the state. *)
Theorem retry_fire_refetches_its_resource : forall resource s,
  retry_fire (TRetry resource) s = (false, s) \/
  retry_fire (TRetry resource) s = (true, add_request (ReqGet ("/api/" ++ resource)) s).
Proof.
  intros k s. unfold retry_fire.
  destruct (String.eqb_spec k "cameras") as [-> | _].
  { unfold loadCameras_start, bind, gets, fetch, modify, log, ret.
    destruct (String.eqb (pathname s) "/library"); [left | right]; reflexivity. }
  destruct (String.eqb_spec k "videos") as [-> | _].
  { unfold loadVideos_start, bind, gets, fetch, modify, ret.
    destruct (has_videosGrid (dom s)); [right | left]; reflexivity. }
  destruct (String.eqb_spec k "uploaded-videos") as [-> | _].
  { unfold loadUploadedVideos_start, bind, gets, fetch, modify, log, ret.
    destruct (String.eqb (pathname s) "/library"); [left | right]; reflexivity. }
  left. reflexivity.
Qed.

(** ** Upload, then process *)

Lemma processVideo_start_accepts : forall s v,
  isProcessing s = false -> currentVideo s = Some v ->
  has_checkbox (dom s) = true -> has_progress (dom s) = true ->
  processVideo_start s =
    (PvAwaiting, add_request (ReqProcess (vi_filename v) (checkbox_checked (dom s)))
                   (set_processingStatus "Starting video processing..." (set_isProcessing true s))).
Proof.
  intros s v Hp Hv Hc Hg.
  unfold processVideo_start, bind, gets, modify, ret, fetch.
  rewrite Hp. cbn [set_isProcessing currentVideo dom].
  rewrite Hv. cbn [set_isProcessing dom]. rewrite Hc, Hg. reflexivity.
Qed.

(** What the success path of [handleVideoUpload] leaves in place: the
    processing guard and the page elements, and the uploaded video. *)
Lemma upload_success_frame : forall s vi e lr,
  let s1 := snd_run (handleVideoUpload_resume (UOk true vi e) lr) s in
  isProcessing s1 = isProcessing s /\
  has_checkbox (dom s1) = has_checkbox (dom s) /\
  checkbox_checked (dom s1) = checkbox_checked (dom s) /\
  has_progress (dom s1) = has_progress (dom s) /\
  selected_file (dom s1) = None /\
  isUploading s1 = false /\
  currentVideo s1 = match vi with Some v => Some v | None => currentVideo s end.
Proof.
  intros s vi e lr. cbv zeta.
  unfold snd_run, handleVideoUpload_resume, loadUploadedVideos_start, loadUploadedVideos_resume,
    handleApiError, showNotification, setTimeout, log, bind, gets, modify, ret, fetch.
  destruct vi as [v |]; cbn -[to_dec];
    destruct (String.eqb (pathname s) "/library"); cbn -[to_dec];
    try (destruct lr; cbn -[to_dec]);
    try (destruct (retryCount s <? maxRetries s); cbn -[to_dec]);
    repeat split.
Qed.

(** After a successful upload, a click on the process button submits the
    uploaded file, with the checkbox value of the page, whichever upload
    listener ([handleVideoUpload] or [uploadVideo]) handled the response. *)
Theorem upload_then_process_submits_uploaded_file : forall s v e lr,
  isProcessing s = false -> has_checkbox (dom s) = true -> has_progress (dom s) = true ->
  (let s1 := snd_run (handleVideoUpload_resume (UOk true (Some v) e) lr) s in
   processVideo_start s1 =
     (PvAwaiting, add_request (ReqProcess (vi_filename v) (checkbox_checked (dom s)))
                    (set_processingStatus "Starting video processing..." (set_isProcessing true s1)))) /\
  (let s1 := snd_run (uploadVideo_resume (UvOk v)) s in
   processVideo_start s1 =
     (PvAwaiting, add_request (ReqProcess (vi_filename v) (checkbox_checked (dom s)))
                    (set_processingStatus "Starting video processing..." (set_isProcessing true s1)))).
Proof.
  intros s v e lr Hp Hc Hg. split; cbv zeta.
  - destruct (upload_success_frame s (Some v) e lr) as (H1 & H2 & H3 & H4 & _ & _ & H7).
    rewrite <- H3. apply processVideo_start_accepts; congruence.
  - change (checkbox_checked (dom s))
      with (checkbox_checked (dom (snd_run (uploadVideo_resume (UvOk v)) s))).
    apply processVideo_start_accepts; [exact Hp | reflexivity | exact Hc | exact Hg].
Qed.

Lemma upload_then_process_submits_uploaded_file_witness :
  isProcessing (app_init (page_full None)) = false /\
  has_checkbox (dom (app_init (page_full None))) = true /\
  has_progress (dom (app_init (page_full None))) = true /\
  fst (processVideo_start (snd_run (handleVideoUpload_resume
        (UOk true (Some (mkVideoInfo "upload_1.mp4")) None) (FOk [])) (app_init (page_full None))))
    = PvAwaiting.
Proof.
  assert (Hp : isProcessing (app_init (page_full None)) = false) by reflexivity.
  assert (Hc : has_checkbox (dom (app_init (page_full None))) = true) by reflexivity.
  assert (Hg : has_progress (dom (app_init (page_full None))) = true) by reflexivity.
  split; [exact Hp | split; [exact Hc | split; [exact Hg |]]].
  rewrite (proj1 (upload_then_process_submits_uploaded_file (app_init (page_full None))
            (mkVideoInfo "upload_1.mp4") None (FOk []) Hp Hc Hg)).
  reflexivity.
Defined.

(** ** Upload: the file input is cleared *)

(** After [handleVideoUpload] accepts an upload, the file input is empty:
    the next submit of the form shows "Please select a video file" from
    both listeners, sends nothing, and leaves the uploading guard free. *)
Theorem upload_success_then_resubmit_rejected : forall s vi e lr,
  let s1 := snd_run (handleVideoUpload_resume (UOk true vi e) lr) s in
  fst (onUploadSubmit s1) = (HuReturned, UvReturned) /\
  requests (snd (onUploadSubmit s1)) = requests s1 /\
  notes (snd (onUploadSubmit s1)) =
    (notes s1 ++ [("Please select a video file"%string, Kwarning);
                  ("Please select a video file"%string, Kerror)])%list /\
  isUploading (snd (onUploadSubmit s1)) = false.
Proof.
  intros s vi e lr. cbv zeta.
  destruct (upload_success_frame s vi e lr) as (_ & _ & _ & _ & Hf & Hu & _).
  set (s1 := snd_run (handleVideoUpload_resume (UOk true vi e) lr) s) in *.
  unfold onUploadSubmit, handleVideoUpload_start, uploadVideo_start,
    showNotification, log, bind, gets, modify, ret.
  rewrite Hu. cbn [set_isUploading dom]. rewrite Hf.
  cbn [add_note set_isUploading dom notes requests isUploading fst snd].
  rewrite Hf. cbn [add_note set_isUploading dom notes requests isUploading fst snd].
  rewrite <- app_assoc. repeat split.
Qed.

(** ** The process button: two listeners *)

(** With no uploaded video, one click runs [processVideo] twice: the
    error notification appears twice, nothing is sent and the guard ends
    free. *)
Theorem process_click_without_video_notifies_twice : forall s,
  isProcessing s = false -> currentVideo s = None ->
  fst (onProcessClick s) = (PvReturned, PvReturned) /\
  notes (snd (onProcessClick s)) =
    (notes s ++ [("Please upload a video first"%string, Kerror);
                 ("Please upload a video first"%string, Kerror)])%list /\
  requests (snd (onProcessClick s)) = requests s /\
  isProcessing (snd (onProcessClick s)) = false.
Proof.
  intros s Hp Hv.
  unfold onProcessClick, processVideo_start, showNotification, log, bind, gets, modify, ret.
  rewrite Hp. cbn [set_isProcessing add_note currentVideo isProcessing]. rewrite Hv.
  cbn [set_isProcessing add_note currentVideo isProcessing notes requests fst snd]. rewrite Hv.
  cbn [set_isProcessing add_note currentVideo isProcessing notes requests fst snd].
  rewrite <- app_assoc. repeat split.
Qed.

Lemma process_click_without_video_notifies_twice_witness :
  isProcessing (app_init (page_full None)) = false /\ currentVideo (app_init (page_full None)) = None /\
  fst (onProcessClick (app_init (page_full None))) = (PvReturned, PvReturned).
Proof.
  assert (Hp : isProcessing (app_init (page_full None)) = false) by reflexivity.
  assert (Hv : currentVideo (app_init (page_full None)) = None) by reflexivity.
  exact (conj Hp (conj Hv (proj1 (process_click_without_video_notifies_twice _ Hp Hv)))).
Defined.

(** With an uploaded video on the index page, the second run is ignored
    by the guard the first one holds: exactly one submission is sent. *)
Theorem process_click_sends_one_request : forall s v,
  isProcessing s = false -> currentVideo s = Some v ->
  has_checkbox (dom s) = true -> has_progress (dom s) = true ->
  fst (onProcessClick s) = (PvAwaiting, PvIgnored) /\
  requests (snd (onProcessClick s)) =
    (requests s ++ [ReqProcess (vi_filename v) (checkbox_checked (dom s))])%list /\
  isProcessing (snd (onProcessClick s)) = true.
Proof.
  intros s v Hp Hv Hc Hg.
  unfold onProcessClick, bind. cbv beta.
  rewrite (processVideo_start_accepts s v Hp Hv Hc Hg).
  unfold processVideo_start, bind, gets, log, ret.
  cbn [fst snd isProcessing requests add_request set_processingStatus set_isProcessing].
  repeat split.
Qed.

Lemma process_click_sends_one_request_witness :
  let s := uploaded (app_init (page_full None)) in
  isProcessing s = false /\ currentVideo s = Some (mkVideoInfo "upload_1.mp4") /\
  has_checkbox (dom s) = true /\ has_progress (dom s) = true /\
  fst (onProcessClick s) = (PvAwaiting, PvIgnored).
Proof.
  cbv zeta.
  assert (Hp : isProcessing (uploaded (app_init (page_full None))) = false) by reflexivity.
  assert (Hv : currentVideo (uploaded (app_init (page_full None))) = Some (mkVideoInfo "upload_1.mp4"))
    by reflexivity.
  assert (Hc : has_checkbox (dom (uploaded (app_init (page_full None)))) = true) by reflexivity.
  assert (Hg : has_progress (dom (uploaded (app_init (page_full None)))) = true) by reflexivity.
  exact (conj Hp (conj Hv (conj Hc (conj Hg
    (proj1 (process_click_sends_one_request _ _ Hp Hv Hc Hg)))))).
Defined.

(** ** startProgressPolling: more of the closure's behaviour *)

Module PollerMore.
Import Poller.

Lemma ticks_progress : forall ds s,
  forallb tick_ok ds = true -> interval_on s = true -> 0 <= progress s <= 90 ->
  bar s = progress s ->
  let s' := run s (map Tick ds) in
  interval_on s' = true /\ bar s' = progress s' /\ progress s' <= 90 /\
  Z.min 90 (progress s + 2 * Z.of_nat (List.length ds)) <= progress s' /\
  inflight s' = (inflight s + List.length ds)%nat.
Proof.
  induction ds as [| d ds IH]; intros s Hok Hon Hp Hb; cbv zeta.
  - cbn [run map fold_left List.length]. repeat split; first [assumption | lia].
  - cbn [forallb] in Hok. apply andb_true_iff in Hok as [Hd Hok].
    unfold tick_ok in Hd. apply andb_true_iff in Hd as [Hd1 Hd2].
    apply Z.leb_le in Hd1. apply Z.leb_le in Hd2.
    change (run s (map Tick (d :: ds))) with (run (step s (Tick d)) (map Tick ds)).
    set (p := if progress s <? 90 then (let q := progress s + d in if 90 <? q then 90 else q)
              else progress s).
    assert (Hp' : 0 <= p <= 90 /\ Z.min 90 (progress s + 2) <= p).
    { subst p. destruct (Z.ltb_spec (progress s) 90);
        [cbv zeta; destruct (Z.ltb_spec 90 (progress s + d)) |]; lia. }
    assert (Hst : step s (Tick d) =
      mkPoller p (lastProgress s) p (status_for p (status s)) true
               (S (inflight s)) (timeout_fired s) (pnotes s) (probe_succeeded s)).
    { unfold step. rewrite Hon. reflexivity. }
    rewrite Hst.
    destruct (IH (mkPoller p (lastProgress s) p (status_for p (status s)) true
               (S (inflight s)) (timeout_fired s) (pnotes s) (probe_succeeded s)))
      as (H1 & H2 & H3 & H4 & H5); cbn [progress interval_on bar inflight];
      [exact Hok | reflexivity | lia | reflexivity |].
    cbn [progress inflight] in H4, H5.
    repeat split; [exact H1 | exact H2 | exact H3 | | ].
    + cbn [List.length]. lia.
    + rewrite H5. cbn [List.length]. lia.
Qed.

(** With increments of 2 to 10 per tick, 45 ticks without an answer from
    the server bring the simulated progress to its cap of 90, shown by the
    bar, and each tick has started one probe of the processed file. *)
Theorem ticks_reach_cap : forall ds,
  forallb tick_ok ds = true -> (45 <= List.length ds)%nat ->
  progress (run init (map Tick ds)) = 90 /\ bar (run init (map Tick ds)) = 90 /\
  inflight (run init (map Tick ds)) = List.length ds.
Proof.
  intros ds Hok Hl.
  destruct (ticks_progress ds init Hok eq_refl ltac:(cbn; lia) eq_refl)
    as (_ & H2 & H3 & H4 & H5).
  cbn [progress inflight init] in H4, H5.
  assert (Hp : progress (run init (map Tick ds)) = 90) by lia.
  split; [exact Hp | split; [congruence | exact H5]].
Qed.

Lemma ticks_reach_cap_witness :
  forallb tick_ok (repeat 2 45) = true /\ (45 <= List.length (repeat 2 45))%nat /\
  progress (run init (map Tick (repeat 2 45))) = 90.
Proof.
  assert (H1 : forallb tick_ok (repeat 2 45) = true) by (vm_compute; reflexivity).
  assert (H2 : (45 <= List.length (repeat 2 45))%nat) by (rewrite repeat_length; lia).
  exact (conj H1 (conj H2 (proj1 (ticks_reach_cap (repeat 2 45) H1 H2)))).
Defined.

(** Every tick that fired before the first successful probe has its own
    probe in flight; [clearInterval] stops later ticks but not those, so a
    second successful probe shows the success notification again. *)
Theorem success_notified_per_inflight_probe : forall s n,
  inflight s = S (S n) ->
  pnotes (run s [Probe true; Probe true]) =
    (pnotes s ++ [("Video processed successfully!"%string, Ksuccess);
                  ("Video processed successfully!"%string, Ksuccess)])%list /\
  bar (run s [Probe true; Probe true]) = 100 /\
  inflight (run s [Probe true; Probe true]) = n.
Proof.
  intros s n H. destruct s as [p lp b st on fl tf ns ps]. cbn in H. subst fl.
  cbn. rewrite <- app_assoc. repeat split.
Qed.

Lemma success_notified_per_inflight_probe_witness :
  inflight (run init [Tick 2; Tick 2]) = S (S O) /\
  pnotes (run (run init [Tick 2; Tick 2]) [Probe true; Probe true]) =
    [("Video processed successfully!"%string, Ksuccess);
     ("Video processed successfully!"%string, Ksuccess)].
Proof.
  assert (H : inflight (run init [Tick 2; Tick 2]) = S (S O)) by reflexivity.
  exact (conj H (proj1 (success_notified_per_inflight_probe _ O H))).
Defined.



End PollerMore.
